(** * invoice-mapper: a shallow embedding of [src/index.ts]

    The program reads the PDF files of an [invoices] directory, asks a
    text-generation client for a structured record per invoice, and writes
    the records to a CSV file.  The external collaborators (file system,
    PDF text extraction, generation client, write stream, [path]) are the
    fields of a [Host]; the code of [index.ts] is embedded over an
    arbitrary host in a small state-and-exception monad. *)

From Stdlib Require Import Floats Ascii String.
From stdpp Require Import gmap strings list.

Local Open Scope string_scope.
Local Open Scope list_scope.

(* ================================================================== *)
(** ** JavaScript values *)
(* ================================================================== *)

(** A JavaScript value.  Numbers are IEEE-754 doubles, as in the language;
    objects are finite maps from property names to values. *)
#[warnings="-register-all"]
Inductive JSValue : Type :=
| JUndefined
| JNull
| JBool (b : bool)
| JNumber (x : float)
| JString (s : string)
| JArray (l : list JSValue)
| JObject (o : gmap string JSValue).

Abbreviation JSObject := (gmap string JSValue).

(** A thrown value: an [Error] with its name and message. *)
Record JSError : Type := MkError { err_name : string; err_message : string }.

Definition isNaN (x : float) : bool := negb (PrimFloat.eqb x x).

(** ToBoolean: [undefined], [null], [false], [0], [NaN] and the empty
    string are falsy, everything else is truthy. *)
Definition truthy (v : JSValue) : bool :=
  match v with
  | JUndefined | JNull => false
  | JBool b => b
  | JNumber x => negb (PrimFloat.eqb x 0 || isNaN x)
  | JString s => negb (String.eqb s "")
  | JArray _ | JObject _ => true
  end.

(** [a || b] *)
Definition js_or (a b : JSValue) : JSValue := if truthy a then a else b.

(** [o.k]: a property read; a missing property reads as [undefined]. *)
Definition js_get (o : JSObject) (k : string) : JSValue :=
  default JUndefined (o !! k).

(** [String.prototype.toLowerCase] on the ASCII letters. *)
Definition lower_ascii (c : ascii) : ascii :=
  let n := nat_of_ascii c in
  if (65 <=? n)%nat && (n <=? 90)%nat then ascii_of_nat (n + 32) else c.

Fixpoint toLowerCase (s : string) : string :=
  match s with
  | EmptyString => EmptyString
  | String c rest => String (lower_ascii c) (toLowerCase rest)
  end.

(* ================================================================== *)
(** ** The zod schema language used by the program *)
(* ================================================================== *)

(** [z.string()] and [z.number()], the two schema constructors used. *)
Inductive ZodType : Type := ZString | ZNumber.

(** A field of a [z.object]: its type and its [.describe(...)] text. *)
Record ZodField : Type := MkField { zod_type : ZodType; description : string }.

Definition ZodObject : Type := list (string * ZodField).

(** What a zod type accepts: [z.string()] accepts strings, [z.number()]
    accepts numbers other than [NaN].  Neither carries a refinement. *)
Definition zod_accepts (t : ZodType) (v : JSValue) : bool :=
  match t, v with
  | ZString, JString _ => true
  | ZNumber, JNumber x => negb (isNaN x)
  | _, _ => false
  end.

(** Parsing the fields of a [z.object] shape out of an object: every
    declared key must hold an accepted value; undeclared keys are dropped. *)
Fixpoint zod_parse_fields (shape : ZodObject) (o : JSObject) : option JSObject :=
  match shape with
  | [] => Some ∅
  | (k, f) :: rest =>
      if zod_accepts (zod_type f) (js_get o k)
      then (fun r => <[k := js_get o k]> r) <$> zod_parse_fields rest o
      else None
  end.

Definition zod_object_parse (shape : ZodObject) (v : JSValue) : option JSObject :=
  match v with
  | JObject o => zod_parse_fields shape o
  | _ => None
  end.

(** An object conforms to a shape when every declared field is present
    with a value of the declared type. *)
Definition conforms (shape : ZodObject) (o : JSObject) : Prop :=
  Forall (fun kf => exists v, o !! kf.1 = Some v /\ zod_accepts (zod_type kf.2) v = true) shape.

Definition conformsb (shape : ZodObject) (o : JSObject) : bool :=
  forallb (fun kf => match o !! kf.1 with
                     | Some v => zod_accepts (zod_type kf.2) v
                     | None => false
                     end) shape.

(* ================================================================== *)
(** ** Effects: console, external world, exceptions *)
(* ================================================================== *)

(** An argument of a [console.log] / [console.error] call.  A template
    literal is the list of its pieces; [JSON.stringify(data, null, 2)] is
    kept as the object it prints. *)
Inductive ConsoleArg : Type :=
| AStr (s : string)
| ANum (n : nat)
| AErr (e : JSError)
| AJson (o : JSObject).

Inductive ConsoleLine : Type :=
| ConsoleLog (args : list ConsoleArg)
| ConsoleError (args : list ConsoleArg).

(** The outcome of an awaited call: a value, or a thrown error. *)
Inductive Completion (A : Type) : Type :=
| Normal (a : A)
| Throw (e : JSError).
Arguments Normal {A} a.
Arguments Throw {A} e.

Definition is_normal {A} (c : Completion A) : bool :=
  match c with Normal _ => true | Throw _ => false end.

(** The generation request built by [extractInvoiceData]. *)
Record LanguageModel : Type :=
  MkModel { modelId : string; structuredOutputs : bool }.

Record GenerateObjectOptions : Type := MkOptions {
  model : LanguageModel;
  mode : string;
  maxRetries : nat;
  system : string;
  schema : ZodObject;
  prompt : string;
}.

(** [pdf-parse]'s result; only [text] is read. *)
Record PdfData : Type := MkPdfData { text : string }.

(** The options given to [csv-stringify]. *)
Record StringifyOptions : Type := MkStringify { header : bool; columns : list string }.

(** A CSV record: the field values of one row, in column order. *)
Definition CsvRecord : Type := list JSValue.

(** The external collaborators of the program.  [World] is the state they
    act on (file system, remote service); every awaited call returns a
    completion and the next world.  [writeStream path records] stands for
    piping the stringifier into [createWriteStream(path)] and waiting for
    [finish] or [error].  [pdf_console buffer w] is what the PDF parser
    itself prints to the console while it handles [buffer] (it warns with
    [console.log] on a file it cannot read); the other calls print
    nothing. *)
Record Host (World : Type) : Type := MkHost {
  __dirname : string;
  path_join : list string -> string;
  path_extname : string -> string;
  fs_readdir : string -> World -> Completion (list string) * World;
  fs_readFile : string -> World -> Completion string * World;
  pdf : string -> World -> Completion PdfData * World;
  pdf_console : string -> World -> list ConsoleLine;
  generateObject : GenerateObjectOptions -> World -> Completion JSObject * World;
  writeStream : string -> list CsvRecord -> World -> Completion unit * World;
}.
Arguments __dirname {World} _.
Arguments path_join {World} _ _.
Arguments path_extname {World} _ _.
Arguments fs_readdir {World} _ _ _.
Arguments fs_readFile {World} _ _ _.
Arguments pdf {World} _ _ _.
Arguments pdf_console {World} _ _ _.
Arguments generateObject {World} _ _ _.
Arguments writeStream {World} _ _ _ _.

(** The state threaded through the program: the external world and the
    lines written to the console so far. *)
Record State (World : Type) : Type := MkState {
  world : World;
  console : list ConsoleLine;
}.
Arguments MkState {World} _ _.
Arguments world {World} _.
Arguments console {World} _.

(** An asynchronous computation: state in, completion and state out. *)
Definition Async (World A : Type) : Type :=
  State World -> Completion A * State World.

Definition ret {World A} (a : A) : Async World A := fun s => (Normal a, s).

Definition throw {World A} (e : JSError) : Async World A := fun s => (Throw e, s).

Definition bind {World A B} (m : Async World A) (k : A -> Async World B)
  : Async World B :=
  fun s => match m s with
           | (Normal a, s') => k a s'
           | (Throw e, s') => (Throw e, s')
           end.

(** [try { body } catch (error) { handler }] *)
Definition try_catch {World A} (body : Async World A)
    (handler : JSError -> Async World A) : Async World A :=
  fun s => match body s with
           | (Normal a, s') => (Normal a, s')
           | (Throw e, s') => handler e s'
           end.

(** [await f(...)] for a call of the host. *)
Definition await {World A} (f : World -> Completion A * World) : Async World A :=
  fun s => let '(c, w) := f (world s) in (c, MkState w (console s)).

(** [await f(...)] for a call of the host that prints while it runs: the
    lines it prints are on the console when the call completes or throws. *)
Definition awaitPrinting {World A} (f : World -> Completion A * World)
    (printed : World -> list ConsoleLine) : Async World A :=
  fun s => let '(c, w) := f (world s) in
           (c, MkState w (console s ++ printed (world s))).

Definition console_log {World} (args : list ConsoleArg) : Async World unit :=
  fun s => (Normal tt, MkState (world s) (console s ++ [ConsoleLog args])).

Definition console_error {World} (args : list ConsoleArg) : Async World unit :=
  fun s => (Normal tt, MkState (world s) (console s ++ [ConsoleError args])).

Declare Scope async_scope.
Delimit Scope async_scope with async.
Notation "x <- c1 ;; c2" := (bind c1 (fun x => c2))
  (at level 100, c1 at next level, right associativity) : async_scope.
Notation "c1 ;; c2" := (bind c1 (fun _ => c2))
  (at level 100, right associativity) : async_scope.

(* ================================================================== *)
(** ** csv-stringify, as the program configures it *)
(* ================================================================== *)

(** A stringifier holds its options and the rows written to it. *)
Record Stringifier : Type := MkStringifier {
  options : StringifyOptions;
  written : list JSObject;
}.

Definition stringify (opts : StringifyOptions) : Stringifier :=
  MkStringifier opts [].

(** [stringifier.write(row)] *)
Definition stringifier_write (row : JSObject) (st : Stringifier) : Stringifier :=
  MkStringifier (options st) (written st ++ [row]).

(** The fields of one written row: the row's value at each configured
    column, in the order of [columns]. *)
Definition record_of (cols : list string) (row : JSObject) : CsvRecord :=
  map (js_get row) cols.

(** What the stringifier emits: a header record of the column names when
    [header] is set, then one record per written row. *)
Definition stringifier_output (st : Stringifier) : list CsvRecord :=
  (if header (options st) then [map JString (columns (options st))] else [])
  ++ map (record_of (columns (options st))) (written st).

(* ================================================================== *)
(** ** The program *)
(* ================================================================== *)

(** An element of the array returned by [readInvoices]. *)
Record Invoice : Type := MkInvoice {
  content : string;
  fileName : string;
  filePath : string;
}.

(** The schema of lines 52-81. *)
Definition invoiceSchema : ZodObject :=
  [ ("invoiceNumber", MkField ZString
       "The unique identifier for this invoice, avoid special characters like # and * and \x");
    ("issueDate", MkField ZString "The date when the invoice was issued");
    ("companyName", MkField ZString "The name of the company that issued the invoice");
    ("companyAddress", MkField ZString "The address of the company that issued the invoice");
    ("dueDate", MkField ZString "The date by which the invoice should be paid");
    ("totalAmount", MkField ZNumber "The total amount due on the invoice");
    ("currency", MkField ZString "The currency used in the invoice");
    ("customerName", MkField ZString "The name of the customer or company being billed");
    ("customerAddress", MkField ZString "The billing address of the customer");
    ("taxes", MkField ZNumber
       "The total amount of taxes applied to the invoice, just return 0 if no taxes are applied") ].

Definition systemInstructions : string :=
  "You are a helpful assistant that extracts detailed information from invoice contents. Focus on quality and extract detailed information to create an accurate representation of the invoice data.".

(** The argument of the [generateObject] call of lines 45-83. *)
Definition extractOptions (invoiceContent : string) : GenerateObjectOptions :=
  {| model := MkModel "gpt-4o-2024-08-06" true;
     mode := "json";
     maxRetries := 8;
     system := systemInstructions;
     schema := invoiceSchema;
     prompt := String.append
                 "Extract the following information from this invoice content: "
                 invoiceContent |}.

(** The [columns] of lines 95-107. *)
Definition csvColumns : list string :=
  [ "fileName"; "invoiceNumber"; "issueDate"; "companyName"; "companyAddress";
    "dueDate"; "totalAmount"; "currency"; "customerName"; "customerAddress";
    "taxes" ].

(** The loop of lines 111-117. *)
Fixpoint writeRows (data : list JSObject) (stringifier : Stringifier) : Stringifier :=
  match data with
  | [] => stringifier
  | row :: rest =>
      let csvRow := <["fileName" := js_or (js_get row "fileName") (JString "")]> row in
      writeRows rest (stringifier_write csvRow stringifier)
  end.

(** The records [writeToCSV] hands to the write stream. *)
Definition csvRecords (data : list JSObject) : list CsvRecord :=
  stringifier_output
    (writeRows data (stringify {| header := false; columns := csvColumns |})).

Section Program.
Context {World : Type} (host : Host World).

Local Open Scope async_scope.

(** [path.extname(file).toLowerCase() === ".pdf"] *)
Definition isPdf (file : string) : bool :=
  String.eqb (toLowerCase (path_extname host file)) ".pdf".

(** The loop of lines 29-38. *)
Fixpoint readLoop (invoiceDir : string) (pdfFiles : list string)
    (invoiceData : list Invoice) : Async World (list Invoice) :=
  match pdfFiles with
  | [] => ret invoiceData
  | file :: rest =>
      let filePath := path_join host [invoiceDir; file] in
      dataBuffer <- await (fs_readFile host filePath) ;;
      pdfData <- awaitPrinting (pdf host dataBuffer)
                   (pdf_console host dataBuffer) ;;
      readLoop invoiceDir rest
        (invoiceData ++ [ {| content := text pdfData;
                             fileName := file;
                             filePath := filePath |} ])
  end.

Definition readInvoices : Async World (list Invoice) :=
  let invoiceDir := path_join host [__dirname host; ".."; "invoices"] in
  files <- await (fs_readdir host invoiceDir) ;;
  let pdfFiles := List.filter isPdf files in
  readLoop invoiceDir pdfFiles [].

Definition extractInvoiceData (invoiceContent : string) : Async World JSObject :=
  try_catch
    (object <- await (generateObject host (extractOptions invoiceContent)) ;;
     ret object)
    (fun error =>
       console_error [AStr "Error extracting invoice data:"; AErr error] ;;
       throw error).

Definition writeToCSV (data : list JSObject) (outputPath : string)
  : Async World unit :=
  await (writeStream host outputPath (csvRecords data)).

(** The loop of lines 135-147. *)
Fixpoint processInvoices (invoiceContents : list Invoice)
    (extractedData : list JSObject) : Async World (list JSObject) :=
  match invoiceContents with
  | [] => ret extractedData
  | invoice :: rest =>
      console_log [AStr "Processing invoice:"; AStr (fileName invoice)] ;;
      extractedData' <-
        try_catch
          (data <- extractInvoiceData (content invoice) ;;
           let pushed := extractedData
                         ++ [ <["fileName" := JString (fileName invoice)]> data ] in
           console_log [AStr "Extracted invoice data:"; AJson data] ;;
           ret pushed)
          (fun error =>
             console_error [AStr "Error extracting invoice data:"; AErr error] ;;
             ret extractedData) ;;
      processInvoices rest extractedData'
  end.

Definition outputPath : string :=
  path_join host [__dirname host; ".."; "invoice_data.csv"].

(** The body of the [try] block of [main], lines 130-151. *)
Definition mainBody : Async World unit :=
  invoiceContents <- readInvoices ;;
  console_log [AStr "Parsed "; ANum (length invoiceContents); AStr " invoices."] ;;
  extractedData <- processInvoices invoiceContents [] ;;
  writeToCSV extractedData outputPath ;;
  console_log [AStr "CSV file written to "; AStr outputPath].

Definition main : Async World unit :=
  try_catch mainBody
    (fun error => console_error [AStr "Error:"; AErr error]).

End Program.

(* ================================================================== *)
(** ** Vocabulary for the statements *)
(* ================================================================== *)

Section Outcomes.
Context {World : Type} (host : Host World).

(** The outcome of the generation call of each invoice, in processing
    order, the world of one call being the world left by the previous. *)
Fixpoint extractionTrace (invoices : list Invoice) (w : World)
  : list (Invoice * Completion JSObject) * World :=
  match invoices with
  | [] => ([], w)
  | invoice :: rest =>
      let '(c, w1) := generateObject host (extractOptions (content invoice)) w in
      let '(tr, w2) := extractionTrace rest w1 in
      ((invoice, c) :: tr, w2)
  end.

(** The generation client honours the schema it is given: an object it
    returns has every declared field, with the declared type. *)
Definition SchemaContract : Prop :=
  forall opts w obj w',
    generateObject host opts w = (Normal obj, w') -> conforms (schema opts) obj.

End Outcomes.

(** The record the orchestrator pushes for an outcome, if any. *)
Definition batchRecord (o : Invoice * Completion JSObject) : option JSObject :=
  match o.2 with
  | Normal data => Some (<["fileName" := JString (fileName o.1)]> data)
  | Throw _ => None
  end.

(** The console lines the orchestrator's loop prints for an outcome. *)
Definition consoleLines (o : Invoice * Completion JSObject) : list ConsoleLine :=
  ConsoleLog [AStr "Processing invoice:"; AStr (fileName o.1)]
  :: match o.2 with
     | Normal data => [ConsoleLog [AStr "Extracted invoice data:"; AJson data]]
     | Throw e => [ConsoleError [AStr "Error extracting invoice data:"; AErr e];
                   ConsoleError [AStr "Error extracting invoice data:"; AErr e]]
     end.


(** The characters the description of [invoiceNumber] asks to avoid. *)
Definition forbiddenChar (c : ascii) : bool :=
  Ascii.eqb c "#" || Ascii.eqb c "*" || Ascii.eqb c "\".

Fixpoint hasForbiddenChar (s : string) : bool :=
  match s with
  | EmptyString => false
  | String c rest => forbiddenChar c || hasForbiddenChar rest
  end.

(* ================================================================== *)
(** ** Vocabulary for the properties of the individual functions *)
(* ================================================================== *)

(** A line printed with [console.error]. *)
Definition isConsoleError (line : ConsoleLine) : bool :=
  match line with
  | ConsoleError _ => true
  | ConsoleLog _ => false
  end.

(** The file name a record carries, when it is a string. *)
Definition recordName (record : JSObject) : option string :=
  match record !! "fileName" with
  | Some (JString name) => Some name
  | _ => None
  end.

(** The spellings of the extension that [isPdf] lets through. *)
Definition pdfExtensions : list string :=
  [ ".pdf"; ".pdF"; ".pDf"; ".pDF"; ".Pdf"; ".PdF"; ".PDf"; ".PDF" ].

(** The kind of value expected in each column of the output: a string
    for [fileName], then what the schema declares for each field. *)
Definition columnKinds : list (JSValue -> bool) :=
  (fun v => match v with JString _ => true | _ => false end)
  :: map (fun kf => zod_accepts (zod_type kf.2)) invoiceSchema.

(** The last line [main] prints when the file was written, and the line
    its outer [catch] prints. *)
Definition writtenLine {World : Type} (host : Host World) : ConsoleLine :=
  ConsoleLog [AStr "CSV file written to "; AStr (outputPath host)].

Definition abortLine (e : JSError) : ConsoleLine :=
  ConsoleError [AStr "Error:"; AErr e].

(** Where a loaded document comes from: its path is the directory joined
    with its name, and its text was extracted from the bytes read there. *)
Definition loadedFrom {World : Type} (host : Host World)
    (invoiceDir : string) (d : Invoice) : Prop :=
  filePath d = path_join host [invoiceDir; fileName d] /\
  exists w0 dataBuffer w1 pdfData w2,
    fs_readFile host (filePath d) w0 = (Normal dataBuffer, w1) /\
    pdf host dataBuffer w1 = (Normal pdfData, w2) /\
    content d = text pdfData.

(** A line printed by the PDF parser during some call. *)
Definition parserLine {World : Type} (host : Host World) (line : ConsoleLine) : Prop :=
  exists dataBuffer w, In line (pdf_console host dataBuffer w).

(** The line [main] prints after loading. *)
Definition parsedLine (n : nat) : ConsoleLine :=
  ConsoleLog [AStr "Parsed "; ANum n; AStr " invoices."].

(* ================================================================== *)
(** ** Readings of the specification that the code is tested against *)
(* ================================================================== *)

Section Readings.
Context {World : Type} (host : Host World).

(** The batch [main] builds from the given invoices. *)
Definition batchOf (invoices : list Invoice) (s : State World) : list JSObject :=
  omap batchRecord (extractionTrace host invoices (world s)).1.

(** "The error of an exhausted extraction carries the identifier of the
    originating document": the identifier can be read off the error. *)
Definition errorCarriesIdentifier : Prop :=
  exists identifierOf : JSError -> string,
    forall invoice s e s',
      extractInvoiceData host (content invoice) s = (Throw e, s') ->
      identifierOf e = fileName invoice.

(** "[taxes] is a number greater than or equal to 0 in every record." *)
Definition taxesNonNegative (invoices : list Invoice) (s : State World) : Prop :=
  forall record,
    In record (batchOf invoices s) ->
    exists x, record !! "taxes" = Some (JNumber x) /\ PrimFloat.leb 0 x = true.


End Readings.

(** "A response whose [invoiceNumber] holds a forbidden character fails
    schema validation." *)
Definition validationRejectsForbidden : Prop :=
  forall (o : JSObject) (v : string),
    o !! "invoiceNumber" = Some (JString v) ->
    hasForbiddenChar v = true ->
    zod_object_parse invoiceSchema (JObject o) = None.

(* ================================================================== *)
(** ** A scripted host, for running the program on concrete inputs *)
(* ================================================================== *)

Module Mock.

(** A world with a directory listing, file contents by path, a scripted
    service (raw response by prompt) and the files written so far. *)
Record MockWorld : Type := MkWorld {
  listing : Completion (list string);
  files : gmap string string;
  service : string -> Completion JSValue;
  writable : bool;
  disk : gmap string (list CsvRecord);
}.

Fixpoint joinPath (parts : list string) : string :=
  match parts with
  | [] => ""
  | [p] => p
  | p :: rest => String.append p (String.append "/" (joinPath rest))
  end.

(** The suffix of [s] from its last dot, when that dot is not the first
    character: the extension of a plain file name. *)
Fixpoint lastDotSuffix (s : string) : option string :=
  match s with
  | EmptyString => None
  | String c rest =>
      match lastDotSuffix rest with
      | Some ext => Some ext
      | None => if Ascii.eqb c "." then Some s else None
      end
  end.

Definition extname (file : string) : string :=
  match file with
  | EmptyString => ""
  | String c rest =>
      if String.eqb file ".." then "" else default "" (lastDotSuffix rest)
  end.

Definition ENOENT : JSError := MkError "Error" "ENOENT: no such file or directory".
Definition EACCES : JSError := MkError "Error" "EACCES: permission denied".
Definition InvalidPDF : JSError := MkError "InvalidPDFException" "Invalid PDF structure".
Definition NoObjectGenerated : JSError :=
  MkError "AI_NoObjectGeneratedError" "response did not match schema".
Definition APICallError : JSError := MkError "AI_APICallError" "service unavailable".

(** The line the PDF parser prints on a file it cannot read. *)
Definition parserWarning : ConsoleLine :=
  ConsoleLog [AStr "Warning: Indexing all PDF objects"].

(** The scripted client: one raw response per prompt, validated against
    the schema of the request. *)
Definition mockGenerate (opts : GenerateObjectOptions) (w : MockWorld)
  : Completion JSObject * MockWorld :=
  match service w (prompt opts) with
  | Normal raw =>
      match zod_object_parse (schema opts) raw with
      | Some obj => (Normal obj, w)
      | None => (Throw NoObjectGenerated, w)
      end
  | Throw e => (Throw e, w)
  end.

Definition mockHost : Host MockWorld := {|
  __dirname := "/app/src";
  path_join := joinPath;
  path_extname := extname;
  fs_readdir := fun _ w => (listing w, w);
  fs_readFile := fun path w =>
    match files w !! path with
    | Some bytes => (Normal bytes, w)
    | None => (Throw ENOENT, w)
    end;
  pdf := fun buffer w =>
    if String.prefix "%PDF" buffer
    then (Normal {| text := buffer |}, w)
    else (Throw InvalidPDF, w);
  pdf_console := fun buffer w =>
    if String.prefix "%PDF" buffer then [] else [parserWarning];
  generateObject := mockGenerate;
  writeStream := fun path records w =>
    if writable w
    then (Normal tt, MkWorld (listing w) (files w) (service w) (writable w)
                             (<[path := records]> (disk w)))
    else (Throw EACCES, w);
|}.

(** The fields of a well-typed raw response with the given invoice
    number and taxes, and a [fileName] key of its own. *)
Definition responseFields (invoiceNumber : string) (taxes : float) : JSObject :=
  list_to_map
    [ ("invoiceNumber", JString invoiceNumber);
      ("issueDate", JString "2024-01-31");
      ("companyName", JString "Acme");
      ("companyAddress", JString "1 Main St");
      ("dueDate", JString "2024-02-29");
      ("totalAmount", JNumber 150);
      ("currency", JString "EUR");
      ("customerName", JString "Bob");
      ("customerAddress", JString "2 Side St");
      ("taxes", JNumber taxes);
      ("fileName", JString "made-up.pdf") ].

Definition response (invoiceNumber : string) (taxes : float) : JSValue :=
  JObject (responseFields invoiceNumber taxes).

(** A response with a missing field and a wrong-typed one. *)
Definition badResponse : JSValue :=
  JObject (list_to_map
    [ ("invoiceNumber", JString "INV-9"); ("totalAmount", JString "150") ]).

Definition promptOf (text : string) : string := prompt (extractOptions text).

(** The service answers by document text. *)
Definition scriptedService (p : string) : Completion JSValue :=
  if String.eqb p (promptOf "%PDF good") then Normal (response "INV-001" 0)
  else if String.eqb p (promptOf "%PDF marks") then Normal (response "#12*\x" (-5))
  else if String.eqb p (promptOf "%PDF bad") then Normal badResponse
  else Throw APICallError.

Definition worldOf (names : list string) (texts : list (string * string))
    (canWrite : bool) : MockWorld :=
  {| listing := Normal names;
     files := list_to_map texts;
     service := scriptedService;
     writable := canWrite;
     disk := ∅ |}.

Definition start (w : MockWorld) : State MockWorld := MkState w [].

Definition dir : string := "/app/src/../invoices/".

(** Three invoices (one of them failing extraction) and a text file. *)
Definition world1 : MockWorld :=
  worldOf [ "b.pdf"; "notes.txt"; "A.PDF"; "c.pdf" ]
          [ (String.append dir "b.pdf", "%PDF good");
            (String.append dir "A.PDF", "%PDF bad");
            (String.append dir "c.pdf", "%PDF marks");
            (String.append dir "notes.txt", "hello") ]
          true.

(** What [readInvoices] returns in [world1]. *)
Definition invoices1 : list Invoice :=
  [ MkInvoice "%PDF good" "b.pdf" (String.append dir "b.pdf");
    MkInvoice "%PDF bad" "A.PDF" (String.append dir "A.PDF");
    MkInvoice "%PDF marks" "c.pdf" (String.append dir "c.pdf") ].



(** One file that is not a readable PDF. *)
Definition world2 : MockWorld :=
  worldOf [ "a.pdf" ] [ (String.append dir "a.pdf", "garbage") ] true.

(** The directory of [world1], not writable. *)
Definition world3 : MockWorld :=
  worldOf [ "b.pdf" ] [ (String.append dir "b.pdf", "%PDF good") ] false.

(** A missing directory. *)
Definition world4 : MockWorld :=
  {| listing := Throw ENOENT; files := ∅; service := scriptedService;
     writable := true; disk := ∅ |}.

(** The scripted host with an unreachable generation service. *)
Definition offlineHost : Host MockWorld := {|
  __dirname := __dirname mockHost;
  path_join := path_join mockHost;
  path_extname := path_extname mockHost;
  fs_readdir := fs_readdir mockHost;
  fs_readFile := fs_readFile mockHost;
  pdf := pdf mockHost;
  pdf_console := pdf_console mockHost;
  generateObject := fun _ w => (Throw APICallError, w);
  writeStream := writeStream mockHost;
|}.

End Mock.

(* ================================================================== *)
(** ** General facts about the embedding *)
(* ================================================================== *)

Ltac run_async :=
  unfold bind, try_catch, await, ret, throw, console_log, console_error; simpl.

Section Facts.
Context {World : Type} (host : Host World).

Lemma extractionTrace_invoices invoices : forall w,
  map fst (extractionTrace host invoices w).1 = invoices.
Proof.
  induction invoices as [|invoice rest IH]; intros w; simpl; [reflexivity|].
  destruct (generateObject host _ w) as [c w1].
  specialize (IH w1). destruct (extractionTrace host rest w1) as [tr w2].
  simpl in *. by rewrite IH.
Qed.

Lemma extractionTrace_length invoices w :
  length (extractionTrace host invoices w).1 = length invoices.
Proof.
  rewrite <- (extractionTrace_invoices invoices w) at 2.
  by rewrite length_map.
Qed.

(** What [extractInvoiceData] does with the completion of its one call. *)
Lemma extractInvoiceData_run invoiceContent s :
  extractInvoiceData host invoiceContent s =
  match generateObject host (extractOptions invoiceContent) (world s) with
  | (Normal object, w) => (Normal object, MkState w (console s))
  | (Throw error, w) =>
      (Throw error,
       MkState w (console s ++
                  [ConsoleError [AStr "Error extracting invoice data:"; AErr error]]))
  end.
Proof.
  unfold extractInvoiceData. run_async.
  by destruct (generateObject host _ (world s)) as [[object|error] w].
Qed.

(** The loop of [main] never throws: it returns the records of the
    successful outcomes, in order, after the ones it started with. *)
Lemma processInvoices_trace invoices : forall acc s,
  processInvoices host invoices acc s =
  (Normal (acc ++ omap batchRecord (extractionTrace host invoices (world s)).1),
   MkState (extractionTrace host invoices (world s)).2
           (console s
            ++ flat_map consoleLines (extractionTrace host invoices (world s)).1)).
Proof.
  induction invoices as [|invoice rest IH]; intros acc [w out].
  - simpl. unfold ret. by rewrite !app_nil_r.
  - cbn [processInvoices]. unfold bind at 1. unfold console_log at 1.
    unfold bind at 1. unfold try_catch. unfold bind at 1.
    rewrite extractInvoiceData_run. cbn [world console extractionTrace].
    destruct (generateObject host _ w) as [[data|e] w1]; run_async;
      rewrite IH; cbn [world console];
      destruct (extractionTrace host rest w1) as [tr w2]; cbn;
      by rewrite <- ?app_assoc.
Qed.

Lemma batch_length_le (tr : list (Invoice * Completion JSObject)) :
  length (omap batchRecord tr) <= length tr.
Proof.
  induction tr as [|[i [d|e]] tr IH]; cbn; lia.
Qed.

Lemma batch_length_eq (tr : list (Invoice * Completion JSObject)) :
  length (omap batchRecord tr) = length tr <->
  Forall (fun o => is_normal o.2 = true) tr.
Proof.
  induction tr as [|[i [d|e]] tr IH]; cbn.
  - split; [constructor | reflexivity].
  - rewrite Forall_cons. cbn. split.
    + intros H. split; [reflexivity|]. apply IH. lia.
    + intros [_ H]. f_equal. by apply IH.
  - pose proof (batch_length_le tr). rewrite Forall_cons. cbn.
    split; [lia | intros [H' _]; discriminate].
Qed.

Lemma writeRows_written data : forall st,
  written (writeRows data st) =
  written st
  ++ map (fun row => <["fileName" := js_or (js_get row "fileName") (JString "")]> row)
         data.
Proof.
  induction data as [|row rest IH]; intros st; simpl.
  - by rewrite app_nil_r.
  - rewrite IH. simpl. by rewrite <- app_assoc.
Qed.

Lemma writeRows_options data : forall st,
  options (writeRows data st) = options st.
Proof.
  induction data as [|row rest IH]; intros st; simpl; [reflexivity|].
  by rewrite IH.
Qed.

End Facts.

Section RunFacts.
Context {World : Type} (host : Host World).

Local Open Scope async_scope.

(** Every outcome of the trace is the completion of a generation call
    made with the options built from that invoice's text. *)
Lemma extractionTrace_call invoices : forall w invoice c,
  In (invoice, c) (extractionTrace host invoices w).1 ->
  exists w0 w1,
    generateObject host (extractOptions (content invoice)) w0 = (c, w1).
Proof.
  induction invoices as [|i rest IH]; intros w invoice c; simpl; [tauto|].
  destruct (generateObject host _ w) as [c0 w1] eqn:Hcall.
  specialize (IH w1 invoice c).
  destruct (extractionTrace host rest w1) as [tr w2]. simpl in *.
  intros [Heq | Hin]; [|by apply IH].
  inversion Heq; subst. eauto.
Qed.

(** A record of the batch is the record pushed for a successful outcome. *)
Lemma batch_record_origin (tr : list (Invoice * Completion JSObject)) record :
  In record (omap batchRecord tr) ->
  exists invoice data,
    In (invoice, Normal data) tr /\
    record = <["fileName" := JString (fileName invoice)]> data.
Proof.
  induction tr as [|[i [d|e]] tr IH]; cbn; [tauto| |].
  - intros [<- | Hin]; [by exists i, d; auto|].
    destruct (IH Hin) as (i' & d' & Hin' & ->). exists i', d'. auto.
  - intros Hin. destruct (IH Hin) as (i' & d' & Hin' & ->). exists i', d'. auto.
Qed.

Lemma batch_length_successes (tr : list (Invoice * Completion JSObject)) :
  length (omap batchRecord tr)
  = length (List.filter (fun o => is_normal o.2) tr).
Proof.
  induction tr as [|[i [d|e]] tr IH]; cbn; [reflexivity | by rewrite IH | exact IH].
Qed.

(** The shape of a run of the [try] block of [main]: load, log, process
    every invoice, hand the batch to the writer once, log. *)
Lemma mainBody_run s :
  mainBody host s =
  match readInvoices host s with
  | (Throw e, s1) => (Throw e, s1)
  | (Normal invoiceContents, s1) =>
      let tr := extractionTrace host invoiceContents (world s1) in
      (writeToCSV host (omap batchRecord tr.1) (outputPath host) ;;
       console_log [AStr "CSV file written to "; AStr (outputPath host)])
        (MkState tr.2
           (console s1
            ++ ConsoleLog [AStr "Parsed "; ANum (length invoiceContents);
                           AStr " invoices."]
            :: flat_map consoleLines tr.1))
  end.
Proof.
  unfold mainBody. unfold bind at 1.
  destruct (readInvoices host s) as [[invoiceContents|e] s1]; [|reflexivity].
  unfold bind at 1. unfold console_log at 1. unfold bind at 1.
  rewrite processInvoices_trace. cbn [world console app].
  by rewrite <- app_assoc.
Qed.

(** The records of a batch: the row's values at the eleven columns, the
    first one defaulting to the empty string. *)
Lemma csvRecords_rows (data : list JSObject) :
  csvRecords data =
  map (fun row =>
         [ js_or (js_get row "fileName") (JString "");
           js_get row "invoiceNumber"; js_get row "issueDate";
           js_get row "companyName"; js_get row "companyAddress";
           js_get row "dueDate"; js_get row "totalAmount";
           js_get row "currency"; js_get row "customerName";
           js_get row "customerAddress"; js_get row "taxes" ]) data.
Proof.
  unfold csvRecords, stringifier_output.
  rewrite writeRows_options, writeRows_written. cbn [stringify options written header columns app].
  rewrite map_map. apply map_ext. intros row.
  unfold record_of, csvColumns, js_get. cbn [map].
  rewrite lookup_insert_eq.
  by rewrite !lookup_insert_ne by discriminate.
Qed.

Lemma conforms_insert shape k v (o : JSObject) :
  ~ In k (map fst shape) -> conforms shape o -> conforms shape (<[k := v]> o).
Proof.
  unfold conforms. induction shape as [|[k0 f] shape IH]; intros Hk Ho.
  - constructor.
  - inversion Ho as [|? ? (v0 & Hv0 & Hacc) Hrest]; subst. cbn in *.
    constructor.
    + exists v0. split; [|exact Hacc]. cbn.
      rewrite lookup_insert_ne; [exact Hv0 | intros ->; apply Hk; by left].
    + apply IH; [intros Hin; apply Hk; by right | exact Hrest].
Qed.

Lemma zod_parse_fields_sound shape : forall (o r : JSObject) k f,
  zod_parse_fields shape o = Some r -> In (k, f) shape ->
  r !! k = Some (js_get o k) /\ zod_accepts (zod_type f) (js_get o k) = true.
Proof.
  induction shape as [|[k0 f0] shape IH]; intros o r k f Hparse Hin; [destruct Hin|].
  cbn in Hparse.
  destruct (zod_accepts (zod_type f0) (js_get o k0)) eqn:Hacc; [|discriminate].
  destruct (zod_parse_fields shape o) as [r0|] eqn:Hr0; [|discriminate].
  cbn in Hparse. inversion Hparse; subst.
  destruct Hin as [Heq|Hin].
  - inversion Heq; subst. by rewrite lookup_insert_eq.
  - destruct (IH o r0 k f Hr0 Hin) as [Hk Hf]. split; [|exact Hf].
    destruct (decide (k0 = k)) as [->|Hne].
    + by rewrite lookup_insert_eq.
    + by rewrite lookup_insert_ne.
Qed.

Lemma zod_object_parse_conforms shape raw (r : JSObject) :
  zod_object_parse shape raw = Some r -> conforms shape r.
Proof.
  destruct raw as [| | | | | |o]; try discriminate. cbn. intros Hparse.
  unfold conforms. apply List.Forall_forall. intros [k f] Hin.
  destruct (zod_parse_fields_sound shape o r k f Hparse Hin) as [Hk Hf].
  exists (js_get o k). by split.
Qed.

(** Under the schema contract every record of a batch conforms to the
    invoice schema: attaching [fileName] touches no declared field. *)
Lemma batch_conforms (Hcontract : SchemaContract host) invoices w :
  Forall (conforms invoiceSchema)
         (omap batchRecord (extractionTrace host invoices w).1).
Proof.
  apply List.Forall_forall. intros record Hin.
  destruct (batch_record_origin _ record Hin) as (invoice & data & Hout & ->).
  destruct (extractionTrace_call invoices _ _ _ Hout) as (w0 & w1 & Hcall).
  apply conforms_insert.
  - cbn. intros Hk. repeat (destruct Hk as [Hk|Hk]; [discriminate|]). exact Hk.
  - exact (Hcontract _ _ _ _ Hcall).
Qed.



Lemma readInvoices_run s :
  readInvoices host s =
  match fs_readdir host (path_join host [__dirname host; ".."; "invoices"]) (world s) with
  | (Normal files, w) =>
      readLoop host (path_join host [__dirname host; ".."; "invoices"])
        (List.filter (isPdf host) files) [] (MkState w (console s))
  | (Throw e, w) => (Throw e, MkState w (console s))
  end.
Proof.
  unfold readInvoices. unfold bind, await.
  by destruct (fs_readdir host _ (world s)) as [[files|e] w].
Qed.

Lemma zod_parse_fields_insert_other shape k v : forall (o : JSObject),
  ~ In k (map fst shape) ->
  zod_parse_fields shape (<[k := v]> o) = zod_parse_fields shape o.
Proof.
  induction shape as [|[k0 f0] shape IH]; intros o Hk; [reflexivity|].
  cbn in *. unfold js_get. rewrite lookup_insert_ne by (intros ->; apply Hk; by left).
  rewrite IH by (intros Hin; apply Hk; by right). reflexivity.
Qed.

Lemma zod_parse_fields_replace_head k f rest (o r : JSObject) v :
  ~ In k (map fst rest) ->
  zod_accepts (zod_type f) v = true ->
  zod_parse_fields ((k, f) :: rest) o = Some r ->
  zod_parse_fields ((k, f) :: rest) (<[k := v]> o) = Some (<[k := v]> r).
Proof.
  intros Hk Hacc. cbn [zod_parse_fields]. unfold js_get.
  rewrite lookup_insert_eq. cbn [from_option id]. rewrite Hacc.
  rewrite zod_parse_fields_insert_other by exact Hk.
  destruct (zod_accepts (zod_type f) (default JUndefined (o !! k))); [|discriminate].
  destruct (zod_parse_fields rest o) as [r0|]; [|discriminate].
  cbn. intros Heq. inversion Heq; subst. by rewrite insert_insert_eq.
Qed.






End RunFacts.

(** The scripted client validates what it returns. *)
Lemma mock_contract : SchemaContract Mock.mockHost.
Proof.
  intros opts w obj w'. cbn. unfold Mock.mockGenerate.
  destruct (Mock.service w (prompt opts)) as [raw|e]; [|discriminate].
  destruct (zod_object_parse (schema opts) raw) as [r|] eqn:Hparse; [|discriminate].
  intros Heq. inversion Heq; subst. by eapply zod_object_parse_conforms.
Qed.

Lemma mock_readInvoices_world1 :
  readInvoices Mock.mockHost (Mock.start Mock.world1)
  = (Normal Mock.invoices1, Mock.start Mock.world1).
Proof. reflexivity. Qed.

(* ================================================================== *)
(** ** The claims *)
(* ================================================================== *)

(** C1.  With a generation client that honours the schema it is given,
    the batch built by the orchestrator is exactly the list of records of
    the successful extractions: every record of the batch has every field
    of the schema with a value of the declared type, and a failed
    extraction contributes no record. *)
Theorem batch_records_conform {World : Type} (host : Host World)
    (Hcontract : SchemaContract host) (invoices : list Invoice) (s : State World) :
  let tr := (extractionTrace host invoices (world s)).1 in
  (processInvoices host invoices [] s).1 = Normal (omap batchRecord tr) /\
  Forall (conforms invoiceSchema) (omap batchRecord tr) /\
  length (omap batchRecord tr) = length (List.filter (fun o => is_normal o.2) tr).
Proof.
  intros tr. split; [|split].
  - by rewrite processInvoices_trace.
  - by apply batch_conforms.
  - apply batch_length_successes.
Qed.

Lemma batch_records_conform_witness :
  let tr := (extractionTrace Mock.mockHost Mock.invoices1 Mock.world1).1 in
  (processInvoices Mock.mockHost Mock.invoices1 [] (Mock.start Mock.world1)).1
    = Normal (omap batchRecord tr) /\
  Forall (conforms invoiceSchema) (omap batchRecord tr) /\
  length (omap batchRecord tr) = length (List.filter (fun o => is_normal o.2) tr).
Proof.
  exact (batch_records_conform Mock.mockHost mock_contract Mock.invoices1
           (Mock.start Mock.world1)).
Defined.

(** C2 (as stated, refuted).  The error thrown by a failed extraction does
    not identify the document: two documents with the same text and
    different file names fail with the same error. *)
Lemma extraction_error_has_no_identifier :
  ~ errorCarriesIdentifier Mock.mockHost.
Proof.
  intros [identifierOf Hid].
  pose proof (Hid (MkInvoice "%PDF bad" "a.pdf" "a.pdf") (Mock.start Mock.world1)
                _ _ eq_refl) as Ha.
  pose proof (Hid (MkInvoice "%PDF bad" "b.pdf" "b.pdf") (Mock.start Mock.world1)
                _ _ eq_refl) as Hb.
  cbn in Ha, Hb. rewrite Ha in Hb. discriminate.
Qed.

(** C2 (amended).  [extractInvoiceData] makes one call of the generation
    client, with [maxRetries] set to 8 and with the fixed model, mode,
    system instructions and schema, the prompt being built from the
    document text alone; retrying is left to the client.  When the call
    fails, the error of the call is logged and rethrown as it is. *)
Theorem extraction_rethrows_client_error {World : Type} (host : Host World)
    (invoiceContent : string) (s : State World) :
  maxRetries (extractOptions invoiceContent) = 8 /\
  extractOptions invoiceContent
  = MkOptions (MkModel "gpt-4o-2024-08-06" true) "json" 8 systemInstructions
      invoiceSchema
      (String.append "Extract the following information from this invoice content: "
         invoiceContent) /\
  extractInvoiceData host invoiceContent s =
  match generateObject host (extractOptions invoiceContent) (world s) with
  | (Normal object, w) => (Normal object, MkState w (console s))
  | (Throw error, w) =>
      (Throw error,
       MkState w (console s ++
                  [ConsoleError [AStr "Error extracting invoice data:"; AErr error]]))
  end.
Proof.
  split; [reflexivity|]. split; [reflexivity|]. apply extractInvoiceData_run.
Qed.

(** C3.  Once the documents are loaded, a failing extraction never stops
    the run: every invoice is processed in order, the loop returns
    normally with the records of the successful ones only, each failure is
    printed with [console.error], and [main] hands that batch to
    [writeToCSV]. *)
Theorem extraction_failure_never_aborts {World : Type} (host : Host World)
    (s s1 : State World) (invoices : list Invoice)
    (Hload : readInvoices host s = (Normal invoices, s1)) :
  let started :=
    MkState (world s1)
      (console s1 ++ [ConsoleLog [AStr "Parsed "; ANum (length invoices);
                                  AStr " invoices."]]) in
  let tr := extractionTrace host invoices (world s1) in
  let batch := omap batchRecord tr.1 in
  let out := console started ++ flat_map consoleLines tr.1 in
  map fst tr.1 = invoices /\
  processInvoices host invoices [] started = (Normal batch, MkState tr.2 out) /\
  (forall invoice e,
     In (invoice, Throw e) tr.1 ->
     batchRecord (invoice, Throw e) = None /\
     In (ConsoleError [AStr "Error extracting invoice data:"; AErr e]) out) /\
  mainBody host s =
  bind (writeToCSV host batch (outputPath host))
       (fun _ => console_log [AStr "CSV file written to "; AStr (outputPath host)])
       (MkState tr.2 out).
Proof.
  intros started tr batch out. split; [|split; [|split]].
  - apply extractionTrace_invoices.
  - by rewrite processInvoices_trace.
  - intros invoice e Hin. split; [reflexivity|].
    unfold out. apply in_or_app. right. apply in_flat_map.
    exists (invoice, Throw e). split; [exact Hin|]. cbn. auto.
  - rewrite mainBody_run, Hload. unfold out, started. cbn [console].
    by rewrite <- app_assoc.
Qed.

Lemma extraction_failure_never_aborts_witness :
  let host := Mock.mockHost in
  let s1 := Mock.start Mock.world1 in
  let invoices := Mock.invoices1 in
  let started :=
    MkState (world s1)
      (console s1 ++ [ConsoleLog [AStr "Parsed "; ANum (length invoices);
                                  AStr " invoices."]]) in
  let tr := extractionTrace host invoices (world s1) in
  let batch := omap batchRecord tr.1 in
  let out := console started ++ flat_map consoleLines tr.1 in
  map fst tr.1 = invoices /\
  processInvoices host invoices [] started = (Normal batch, MkState tr.2 out) /\
  (forall invoice e,
     In (invoice, Throw e) tr.1 ->
     batchRecord (invoice, Throw e) = None /\
     In (ConsoleError [AStr "Error extracting invoice data:"; AErr e]) out) /\
  mainBody host (Mock.start Mock.world1) =
  bind (writeToCSV host batch (outputPath host))
       (fun _ => console_log [AStr "CSV file written to "; AStr (outputPath host)])
       (MkState tr.2 out).
Proof.
  exact (extraction_failure_never_aborts Mock.mockHost (Mock.start Mock.world1)
           (Mock.start Mock.world1) Mock.invoices1 eq_refl).
Defined.

(** C4.  For every batch, the writer hands the write stream exactly one
    record per row of the batch, in the order of the batch, whose fields
    are the row's values at [fileName], [invoiceNumber], [issueDate],
    [companyName], [companyAddress], [dueDate], [totalAmount], [currency],
    [customerName], [customerAddress], [taxes], in that order; the header
    option is off and no header record precedes them. *)
Theorem writer_rows_and_columns {World : Type} (host : Host World)
    (data : list JSObject) (path : string) (s : State World) :
  let fields := fun row : JSObject =>
    [ js_or (js_get row "fileName") (JString "");
      js_get row "invoiceNumber"; js_get row "issueDate";
      js_get row "companyName"; js_get row "companyAddress";
      js_get row "dueDate"; js_get row "totalAmount";
      js_get row "currency"; js_get row "customerName";
      js_get row "customerAddress"; js_get row "taxes" ] in
  csvRecords data = map fields data /\
  length (csvRecords data) = length data /\
  header (options (writeRows data
            (stringify {| header := false; columns := csvColumns |}))) = false /\
  writeToCSV host data path s
  = await (writeStream host path (map fields data)) s.
Proof.
  intros fields. pose proof (csvRecords_rows data) as Hrows.
  split; [exact Hrows|]. split; [by rewrite Hrows, length_map|].
  split; [by rewrite writeRows_options|].
  unfold writeToCSV. by rewrite Hrows.
Qed.

(** C6.  In a run whose documents were loaded, the number of records
    handed to the write stream is the length of the batch, which is at
    most the number of documents, and equals it exactly when every
    extraction succeeded. *)
Theorem output_row_count {World : Type} (host : Host World)
    (s s1 : State World) (invoices : list Invoice)
    (Hload : readInvoices host s = (Normal invoices, s1)) :
  let tr := extractionTrace host invoices (world s1) in
  let batch := omap batchRecord tr.1 in
  (exists s2,
     mainBody host s =
     bind (await (writeStream host (outputPath host) (csvRecords batch)))
          (fun _ => console_log [AStr "CSV file written to "; AStr (outputPath host)])
          s2) /\
  length (csvRecords batch) = length batch /\
  length batch <= length invoices /\
  (length batch = length invoices <-> Forall (fun o => is_normal o.2 = true) tr.1).
Proof.
  intros tr batch.
  assert (Hlen : length tr.1 = length invoices) by apply extractionTrace_length.
  split; [|split; [|split]].
  - rewrite mainBody_run, Hload. eexists. reflexivity.
  - by rewrite csvRecords_rows, length_map.
  - rewrite <- Hlen. apply batch_length_le.
  - rewrite <- Hlen. apply batch_length_eq.
Qed.

Lemma output_row_count_witness :
  let tr := extractionTrace Mock.mockHost Mock.invoices1 Mock.world1 in
  let batch := omap batchRecord tr.1 in
  (exists s2,
     mainBody Mock.mockHost (Mock.start Mock.world1) =
     bind (await (writeStream Mock.mockHost (outputPath Mock.mockHost)
                    (csvRecords batch)))
          (fun _ => console_log [AStr "CSV file written to ";
                                 AStr (outputPath Mock.mockHost)])
          s2) /\
  length (csvRecords batch) = length batch /\
  length batch <= length Mock.invoices1 /\
  (length batch = length Mock.invoices1
   <-> Forall (fun o => is_normal o.2 = true) tr.1).
Proof.
  exact (output_row_count Mock.mockHost (Mock.start Mock.world1)
           (Mock.start Mock.world1) Mock.invoices1 eq_refl).
Defined.




(** C7 (as stated, refuted).  A client that honours the schema can return
    negative taxes, and the record is kept: the third invoice of the
    scripted world yields [taxes = -5]. *)
Lemma negative_taxes_accepted :
  ~ taxesNonNegative Mock.mockHost Mock.invoices1 (Mock.start Mock.world1).
Proof.
  intros Hnonneg.
  destruct (Hnonneg (nth 1 (batchOf Mock.mockHost Mock.invoices1
                              (Mock.start Mock.world1)) ∅))
    as (x & Htaxes & Hle).
  - apply nth_In. vm_compute. lia.
  - vm_compute in Htaxes. inversion Htaxes; subst.
    vm_compute in Hle. discriminate.
Qed.

(** C7 (amended).  With a generation client that honours the schema, the
    [taxes] field of every record of the batch is present and is a number
    other than [NaN]; its sign is not constrained, and returning 0 when no
    taxes are applied is only asked of the model in the field's
    description. *)
Theorem taxes_present_and_numeric {World : Type} (host : Host World)
    (Hcontract : SchemaContract host) (invoices : list Invoice) (s : State World)
    (record : JSObject) (Hin : In record (batchOf host invoices s)) :
  (exists x, record !! "taxes" = Some (JNumber x) /\ isNaN x = false) /\
  In ("taxes",
      MkField ZNumber
        "The total amount of taxes applied to the invoice, just return 0 if no taxes are applied")
     invoiceSchema.
Proof.
  split; [|cbn; tauto].
  pose proof (batch_conforms host Hcontract invoices (world s)) as Hall.
  rewrite List.Forall_forall in Hall. specialize (Hall record Hin).
  unfold conforms in Hall. rewrite List.Forall_forall in Hall.
  destruct (Hall ("taxes", MkField ZNumber
      "The total amount of taxes applied to the invoice, just return 0 if no taxes are applied"))
    as (v & Hv & Hacc); [cbn; tauto|].
  cbn in Hv, Hacc. destruct v; try discriminate.
  exists x. split; [exact Hv|]. by apply negb_true_iff.
Qed.

Lemma taxes_present_and_numeric_witness :
  (exists x,
     nth 0 (batchOf Mock.mockHost Mock.invoices1 (Mock.start Mock.world1)) ∅
       !! "taxes" = Some (JNumber x) /\ isNaN x = false) /\
  In ("taxes",
      MkField ZNumber
        "The total amount of taxes applied to the invoice, just return 0 if no taxes are applied")
     invoiceSchema.
Proof.
  apply (taxes_present_and_numeric Mock.mockHost mock_contract Mock.invoices1
           (Mock.start Mock.world1)).
  apply nth_In. vm_compute. lia.
Defined.

(** C8 (as stated, refuted).  A response whose [invoiceNumber] is
    [#12*\x] passes the schema. *)
Lemma forbidden_invoiceNumber_passes_validation :
  ~ validationRejectsForbidden.
Proof.
  intros Hrejects.
  specialize (Hrejects (Mock.responseFields "#12*\x" (-5)) "#12*\x" eq_refl eq_refl).
  vm_compute in Hrejects. discriminate.
Qed.

(** C8 (amended).  The schema declares [invoiceNumber] as a string and
    nothing more; avoiding [#], [*] and [\x] is only asked of the model in
    the field's description.  A response accepted by the schema stays
    accepted when its [invoiceNumber] is replaced by any string whatever,
    and the record pushed for a successful extraction carries the
    [invoiceNumber] the client returned. *)
Theorem invoiceNumber_accepts_any_string (o r : JSObject) (v : string)
    (Hparse : zod_object_parse invoiceSchema (JObject o) = Some r) :
  zod_object_parse invoiceSchema (JObject (<["invoiceNumber" := JString v]> o))
  = Some (<["invoiceNumber" := JString v]> r) /\
  In ("invoiceNumber",
      MkField ZString
        "The unique identifier for this invoice, avoid special characters like # and * and \x")
     invoiceSchema /\
  (forall (invoice : Invoice) (data record : JSObject),
     batchRecord (invoice, Normal data) = Some record ->
     record !! "invoiceNumber" = data !! "invoiceNumber").
Proof.
  split; [|split].
  - cbn [zod_object_parse] in *.
    apply (zod_parse_fields_replace_head "invoiceNumber"
             (MkField ZString
                "The unique identifier for this invoice, avoid special characters like # and * and \x")
             (skipn 1 invoiceSchema) o r (JString v)); [|reflexivity|exact Hparse].
    cbn. intros Hk. repeat (destruct Hk as [Hk|Hk]; [discriminate|]). exact Hk.
  - cbn. tauto.
  - intros invoice data record Hrec. cbn in Hrec. inversion Hrec; subst.
    by rewrite lookup_insert_ne.
Qed.

Lemma invoiceNumber_accepts_any_string_witness :
  zod_object_parse invoiceSchema
    (JObject (<["invoiceNumber" := JString "#12*\x"]> (Mock.responseFields "INV-001" 0)))
  = Some (<["invoiceNumber" := JString "#12*\x"]>
            (default ∅ (zod_object_parse invoiceSchema (Mock.response "INV-001" 0)))) /\
  In ("invoiceNumber",
      MkField ZString
        "The unique identifier for this invoice, avoid special characters like # and * and \x")
     invoiceSchema /\
  (forall (invoice : Invoice) (data record : JSObject),
     batchRecord (invoice, Normal data) = Some record ->
     record !! "invoiceNumber" = data !! "invoiceNumber").
Proof.
  apply (invoiceNumber_accepts_any_string (Mock.responseFields "INV-001" 0)).
  reflexivity.
Defined.




(** C10.  Every record of the batch is the object returned for one of the
    invoices with its [fileName] property set to that invoice's file name,
    whatever [fileName] the returned object had; and the writer's first
    field is the row's [fileName] when it is truthy and the empty string
    otherwise (missing, [null], empty, ...), so that a record pushed by
    the orchestrator is written with the invoice's file name. *)
Theorem fileName_is_document_name {World : Type} (host : Host World)
    (invoices : list Invoice) (s : State World) :
  (processInvoices host invoices [] s).1 = Normal (batchOf host invoices s) /\
  (forall record,
     In record (batchOf host invoices s) ->
     exists invoice data,
       In invoice invoices /\
       In (invoice, Normal data) (extractionTrace host invoices (world s)).1 /\
       record = <["fileName" := JString (fileName invoice)]> data /\
       record !! "fileName" = Some (JString (fileName invoice)) /\
       hd JUndefined (record_of csvColumns
         (<["fileName" := js_or (js_get record "fileName") (JString "")]> record))
       = JString (fileName invoice)) /\
  (forall (data : JSObject) (supplied : JSValue) (name : string),
     <["fileName" := JString name]> (<["fileName" := supplied]> data) !! "fileName"
     = Some (JString name)) /\
  (forall data : list JSObject,
     map (hd JUndefined) (csvRecords data)
     = map (fun row => if truthy (js_get row "fileName")
                       then js_get row "fileName" else JString "") data) /\
  (forall row : JSObject,
     row !! "fileName" = None ->
     js_or (js_get row "fileName") (JString "") = JString "").
Proof.
  split; [|split; [|split; [|split]]].
  - unfold batchOf. by rewrite processInvoices_trace.
  - intros record Hin. unfold batchOf in Hin.
    destruct (batch_record_origin _ record Hin) as (invoice & data & Hout & ->).
    exists invoice, data. split; [|split; [exact Hout|split; [reflexivity|]]].
    + rewrite <- (extractionTrace_invoices host invoices (world s)).
      apply in_map_iff. by exists (invoice, Normal data).
    + split; [apply lookup_insert_eq|].
      cbn. unfold js_get. rewrite !lookup_insert_eq. cbn.
      unfold js_or. cbn. by destruct (fileName invoice).
  - intros data supplied name. apply lookup_insert_eq.
  - intros data. rewrite csvRecords_rows, map_map. reflexivity.
  - intros row Hrow. unfold js_get. by rewrite Hrow.
Qed.

Lemma fileName_is_document_name_example :
  map (hd JUndefined)
      (csvRecords (batchOf Mock.mockHost Mock.invoices1 (Mock.start Mock.world1)))
  = [JString "b.pdf"; JString "c.pdf"] /\
  map (hd JUndefined) (csvRecords [∅; {["fileName" := JNull]}; {["fileName" := JNumber 0]}])
  = [JString ""; JString ""; JString ""].
Proof. split; reflexivity. Qed.

Lemma run_outcomes_example :
  (mainBody Mock.mockHost (Mock.start Mock.world1)).1 = Normal tt /\
  Mock.disk (world (main Mock.mockHost (Mock.start Mock.world1)).2)
    !! outputPath Mock.mockHost
  = Some (csvRecords (batchOf Mock.mockHost Mock.invoices1 (Mock.start Mock.world1))) /\
  (mainBody Mock.mockHost (Mock.start Mock.world3)).1 = Throw Mock.EACCES /\
  (mainBody Mock.mockHost (Mock.start Mock.world4)).1 = Throw Mock.ENOENT /\
  main Mock.mockHost (Mock.start Mock.world2)
  = (Normal tt,
     MkState Mock.world2
       [Mock.parserWarning; ConsoleError [AStr "Error:"; AErr Mock.InvalidPDF]]).
Proof. repeat split; reflexivity. Qed.

(* ================================================================== *)
(** ** Further properties of the functions *)
(* ================================================================== *)

Section LoaderFacts.
Context {World : Type} (host : Host World).

(** The loading loop only adds to the console what the parser prints. *)
Lemma readLoop_console invoiceDir pdfFiles : forall acc s,
  exists out,
    console (readLoop host invoiceDir pdfFiles acc s).2 = console s ++ out /\
    Forall (parserLine host) out.
Proof.
  induction pdfFiles as [|file rest IH]; intros acc s; cbn [readLoop].
  - exists []. split; [by rewrite app_nil_r | constructor].
  - unfold bind at 1. unfold await at 1.
    destruct (fs_readFile host _ (world s)) as [[dataBuffer|e] w1];
      [|exists []; split; [by rewrite app_nil_r | constructor]].
    unfold bind at 1. unfold awaitPrinting at 1. cbn [world console].
    assert (Hprinted : Forall (parserLine host) (pdf_console host dataBuffer w1)).
    { apply List.Forall_forall. intros line Hin. by exists dataBuffer, w1. }
    destruct (pdf host dataBuffer w1) as [[pdfData|e] w2].
    + destruct (IH (acc ++ [ {| content := text pdfData; fileName := file;
                                filePath := path_join host [invoiceDir; file] |} ])
                   (MkState w2 (console s ++ pdf_console host dataBuffer w1)))
        as (out & Hout & Hlines).
      exists (pdf_console host dataBuffer w1 ++ out). split.
      * rewrite Hout. cbn [console]. by rewrite <- app_assoc.
      * apply Forall_app. by split.
    + exists (pdf_console host dataBuffer w1). by split.
Qed.

Lemma readInvoices_console s :
  exists out,
    console (readInvoices host s).2 = console s ++ out /\
    Forall (parserLine host) out.
Proof.
  rewrite readInvoices_run.
  destruct (fs_readdir host _ (world s)) as [[files|e] w].
  - apply (readLoop_console _ _ [] (MkState w (console s))).
  - exists []. split; [by rewrite app_nil_r | constructor].
Qed.

Lemma readLoop_loadedFrom invoiceDir pdfFiles : forall acc s docs s',
  Forall (loadedFrom host invoiceDir) acc ->
  readLoop host invoiceDir pdfFiles acc s = (Normal docs, s') ->
  Forall (loadedFrom host invoiceDir) docs.
Proof.
  induction pdfFiles as [|file rest IH]; intros acc s docs s' Hacc; cbn [readLoop].
  - unfold ret. intros Heq. by inversion Heq; subst.
  - unfold bind at 1. unfold await at 1.
    destruct (fs_readFile host _ (world s)) as [[dataBuffer|e] w1] eqn:Hread;
      [|discriminate].
    unfold bind at 1. unfold awaitPrinting at 1. cbn [world console].
    destruct (pdf host dataBuffer w1) as [[pdfData|e] w2] eqn:Hpdf; [|discriminate].
    apply IH. apply Forall_app. split; [exact Hacc|].
    constructor; [|constructor]. split; [reflexivity|].
    exists (world s), dataBuffer, w1, pdfData, w2. by cbn.
Qed.

End LoaderFacts.


(** X2.  Every document returned by the loader has for path the invoices
    directory joined with its file name, and for content the text that
    [pdf] extracted from the bytes [fs.readFile] returned for that path. *)
Theorem loaded_documents_provenance {World : Type} (host : Host World)
    (s s' : State World) (docs : list Invoice)
    (Hload : readInvoices host s = (Normal docs, s')) :
  Forall (loadedFrom host (path_join host [__dirname host; ".."; "invoices"])) docs.
Proof.
  rewrite readInvoices_run in Hload.
  destruct (fs_readdir host _ (world s)) as [[files|e] w]; [|discriminate].
  eapply readLoop_loadedFrom; [|exact Hload]. constructor.
Qed.

Lemma loaded_documents_provenance_witness :
  Forall (loadedFrom Mock.mockHost
            (path_join Mock.mockHost [__dirname Mock.mockHost; ".."; "invoices"]))
         Mock.invoices1.
Proof.
  exact (loaded_documents_provenance Mock.mockHost (Mock.start Mock.world1)
           (Mock.start Mock.world1) Mock.invoices1 eq_refl).
Defined.

(** X3.  When the directory listing holds no PDF file, no file is read and
    no generation call is made: the loader returns the empty list in the
    world left by the listing, [main] prints [Parsed 0 invoices.] and
    hands the write stream an empty list of records. *)
Theorem run_without_pdf_files {World : Type} (host : Host World)
    (s : State World) (files : list string) (w : World)
    (Hdir : fs_readdir host (path_join host [__dirname host; ".."; "invoices"])
              (world s) = (Normal files, w))
    (Hnone : Forall (fun file => isPdf host file = false) files) :
  readInvoices host s = (Normal [], MkState w (console s)) /\
  mainBody host s =
  match writeStream host (outputPath host) [] w with
  | (Normal _, w') =>
      (Normal tt, MkState w' (console s ++ [parsedLine 0; writtenLine host]))
  | (Throw e, w') => (Throw e, MkState w' (console s ++ [parsedLine 0]))
  end.
Proof.
  assert (Hfilter : List.filter (isPdf host) files = []).
  { clear Hdir. induction Hnone as [|file rest Hfile _ IH]; [reflexivity|].
    cbn. by rewrite Hfile. }
  assert (Hload : readInvoices host s = (Normal [], MkState w (console s))).
  { by rewrite readInvoices_run, Hdir, Hfilter. }
  split; [exact Hload|].
  rewrite mainBody_run, Hload. cbn.
  unfold bind, writeToCSV, await, console_log. cbn.
  destruct (writeStream host (outputPath host) [] w) as [[[]|e] w'];
    [|reflexivity].
  unfold parsedLine, writtenLine. cbn [world console]. by rewrite <- app_assoc.
Qed.

Lemma run_without_pdf_files_witness :
  let w := Mock.worldOf ["notes.txt"; "README"; "scan.pdf.bak"] [] true in
  readInvoices Mock.mockHost (Mock.start w) = (Normal [], Mock.start w) /\
  mainBody Mock.mockHost (Mock.start w) =
  match writeStream Mock.mockHost (outputPath Mock.mockHost) [] w with
  | (Normal _, w') =>
      (Normal tt, MkState w' ([] ++ [parsedLine 0; writtenLine Mock.mockHost]))
  | (Throw e, w') => (Throw e, MkState w' ([] ++ [parsedLine 0]))
  end.
Proof.
  intros w.
  apply (run_without_pdf_files Mock.mockHost (Mock.start w)
           ["notes.txt"; "README"; "scan.pdf.bak"] w eq_refl).
  repeat constructor.
Defined.

(** X6.  When loading fails, nothing else happens: [main] returns normally
    in the world the loader left, having added to the console as the
    loader left it the one line [Error:] with the loader's error; no
    invoice is processed and nothing is given to the write stream. *)
Theorem load_failure_stops_the_run {World : Type} (host : Host World)
    (s s1 : State World) (e : JSError)
    (Hload : readInvoices host s = (Throw e, s1)) :
  main host s = (Normal tt, MkState (world s1) (console s1 ++ [abortLine e])).
Proof.
  unfold main, try_catch. rewrite mainBody_run, Hload. reflexivity.
Qed.

Lemma load_failure_stops_the_run_witness :
  main Mock.mockHost (Mock.start Mock.world2)
  = (Normal tt,
     MkState Mock.world2 ([Mock.parserWarning] ++ [abortLine Mock.InvalidPDF])).
Proof.
  exact (load_failure_stops_the_run Mock.mockHost (Mock.start Mock.world2)
           (MkState Mock.world2 [Mock.parserWarning]) Mock.InvalidPDF eq_refl).
Defined.

Section LoopFacts.
Context {World : Type} (host : Host World).

Lemma extractionTrace_app l1 : forall l2 w,
  extractionTrace host (l1 ++ l2) w =
  ((extractionTrace host l1 w).1
   ++ (extractionTrace host l2 (extractionTrace host l1 w).2).1,
   (extractionTrace host l2 (extractionTrace host l1 w).2).2).
Proof.
  induction l1 as [|invoice rest IH]; intros l2 w; cbn [app extractionTrace].
  - cbn. by destruct (extractionTrace host l2 w).
  - destruct (generateObject host _ w) as [c w1]. rewrite IH.
    destruct (extractionTrace host rest w1) as [tr1 w2]. cbn.
    by destruct (extractionTrace host l2 w2).
Qed.

Lemma extractionTrace_text_only l1 : forall l2 w,
  map content l1 = map content l2 ->
  map snd (extractionTrace host l1 w).1 = map snd (extractionTrace host l2 w).1 /\
  (extractionTrace host l1 w).2 = (extractionTrace host l2 w).2.
Proof.
  induction l1 as [|i1 rest1 IH]; intros [|i2 rest2] w Hsame;
    try discriminate; [by split|].
  cbn in Hsame. inversion Hsame as [[Hhead Htail]]. cbn [extractionTrace].
  rewrite Hhead. destruct (generateObject host _ w) as [c w1].
  destruct (IH rest2 w1 Htail) as [Hout Hworld].
  destruct (extractionTrace host rest1 w1) as [tr1 w2].
  destruct (extractionTrace host rest2 w1) as [tr2 w2'].
  cbn in *. by rewrite Hout, Hworld.
Qed.

Lemma batch_without_fileName (tr : list (Invoice * Completion JSObject)) :
  map (delete "fileName") (omap batchRecord tr)
  = omap (fun c => match c with
                   | Normal data => Some (delete "fileName" data)
                   | Throw _ => None
                   end) (map snd tr).
Proof.
  induction tr as [|[i [d|e]] tr IH]; cbn; [reflexivity| |exact IH].
  by rewrite IH, delete_insert_eq.
Qed.

Lemma batch_names_sublist (tr : list (Invoice * Completion JSObject)) :
  omap recordName (omap batchRecord tr) `sublist_of` map (fun o => fileName o.1) tr /\
  length (omap recordName (omap batchRecord tr)) = length (omap batchRecord tr).
Proof.
  induction tr as [|[i [d|e]] tr [IHsub IHlen]]; cbn.
  - split; [constructor | reflexivity].
  - assert (Hname : recordName (<["fileName" := JString (fileName i)]> d)
                    = Some (fileName i))
      by (unfold recordName; by rewrite lookup_insert_eq).
    rewrite Hname. split; [by apply sublist_skip | cbn; by rewrite IHlen].
  - split; [by apply sublist_cons | exact IHlen].
Qed.

Lemma error_lines_of_trace (tr : list (Invoice * Completion JSObject)) :
  length (List.filter isConsoleError (flat_map consoleLines tr))
  = 2 * (length tr - length (omap batchRecord tr)).
Proof.
  induction tr as [|[i [d|e]] tr IH]; cbn; [reflexivity|exact IH|].
  pose proof (batch_length_le tr). rewrite IH. lia.
Qed.

End LoopFacts.

(** X4.  Processing a list of invoices that is the concatenation of two
    lists is processing the first and then the second, the batch and the
    state of the first run being handed to the second. *)
Theorem processInvoices_app {World : Type} (host : Host World)
    (l1 l2 : list Invoice) (acc : list JSObject) (s : State World) :
  processInvoices host (l1 ++ l2) acc s
  = bind (processInvoices host l1 acc)
         (fun extractedData => processInvoices host l2 extractedData) s.
Proof.
  unfold bind. rewrite !processInvoices_trace. cbn [world console].
  rewrite extractionTrace_app. cbn [fst snd].
  rewrite omap_app, flat_map_app. by rewrite <- !app_assoc.
Qed.

(** X5.  The loop always returns a batch, and the batch keeps the order of
    the documents: the file names carried by its records, one per record,
    form a sublist of the file names of the processed invoices. *)
Theorem batch_keeps_document_order {World : Type} (host : Host World)
    (invoices : list Invoice) (s : State World) :
  exists batch s',
    processInvoices host invoices [] s = (Normal batch, s') /\
    omap recordName batch `sublist_of` map fileName invoices /\
    length (omap recordName batch) = length batch.
Proof.
  rewrite processInvoices_trace. eexists _, _. split; [reflexivity|].
  cbn [app].
  destruct (batch_names_sublist (extractionTrace host invoices (world s)).1)
    as [Hsub Hlen].
  split; [|exact Hlen].
  rewrite <- (extractionTrace_invoices host invoices (world s)) at 2.
  by rewrite map_map.
Qed.

(** X9.  The file name and the path of a document never reach the
    generation client: two lists of invoices with the same texts, in the
    same order, leave the same world and yield batches that differ at most
    in [fileName]. *)
Theorem extraction_depends_on_text_only {World : Type} (host : Host World)
    (l1 l2 : list Invoice) (s : State World)
    (Hsame : map content l1 = map content l2) :
  exists b1 b2 s1 s2,
    processInvoices host l1 [] s = (Normal b1, s1) /\
    processInvoices host l2 [] s = (Normal b2, s2) /\
    world s1 = world s2 /\
    map (delete "fileName") b1 = map (delete "fileName") b2.
Proof.
  rewrite !processInvoices_trace. eexists _, _, _, _.
  split; [reflexivity|]. split; [reflexivity|]. cbn [app world].
  destruct (extractionTrace_text_only host l1 l2 (world s) Hsame) as [Hout Hworld].
  split; [exact Hworld|].
  by rewrite !batch_without_fileName, Hout.
Qed.

Lemma extraction_depends_on_text_only_witness :
  exists b1 b2 s1 s2,
    processInvoices Mock.mockHost Mock.invoices1 [] (Mock.start Mock.world1)
    = (Normal b1, s1) /\
    processInvoices Mock.mockHost
      [ MkInvoice "%PDF good" "x.pdf" "/tmp/x.pdf";
        MkInvoice "%PDF bad" "y.pdf" "/tmp/y.pdf";
        MkInvoice "%PDF marks" "z.pdf" "/tmp/z.pdf" ] [] (Mock.start Mock.world1)
    = (Normal b2, s2) /\
    world s1 = world s2 /\
    map (delete "fileName") b1 = map (delete "fileName") b2.
Proof.
  apply (extraction_depends_on_text_only Mock.mockHost). reflexivity.
Defined.

(** X12.  A failed extraction is reported twice: the loop always returns,
    extending the batch it was given, and the number of [console.error]
    lines it prints is twice the number of invoices that gave no record
    (once in [extractInvoiceData], once in the loop's own [catch]). *)
Theorem failed_extraction_logged_twice {World : Type} (host : Host World)
    (invoices : list Invoice) (acc : list JSObject) (s : State World) :
  exists batch s' out,
    processInvoices host invoices acc s = (Normal (acc ++ batch), s') /\
    console s' = console s ++ out /\
    length (List.filter isConsoleError out)
    = 2 * (length invoices - length batch).
Proof.
  rewrite processInvoices_trace. eexists _, _, _.
  split; [reflexivity|]. split; [reflexivity|].
  rewrite error_lines_of_trace. by rewrite extractionTrace_length.
Qed.

Lemma lower_ascii_dot (c : ascii) : lower_ascii c = "."%char -> c = "."%char.
Proof.
  destruct c as [[] [] [] [] [] [] [] []]; vm_compute; intros H;
    solve [discriminate | reflexivity].
Qed.

Lemma lower_ascii_p (c : ascii) :
  lower_ascii c = "p"%char -> c = "p"%char \/ c = "P"%char.
Proof.
  destruct c as [[] [] [] [] [] [] [] []]; vm_compute; intros H;
    solve [discriminate | by left | by right].
Qed.

Lemma lower_ascii_d (c : ascii) :
  lower_ascii c = "d"%char -> c = "d"%char \/ c = "D"%char.
Proof.
  destruct c as [[] [] [] [] [] [] [] []]; vm_compute; intros H;
    solve [discriminate | by left | by right].
Qed.

Lemma lower_ascii_f (c : ascii) :
  lower_ascii c = "f"%char -> c = "f"%char \/ c = "F"%char.
Proof.
  destruct c as [[] [] [] [] [] [] [] []]; vm_compute; intros H;
    solve [discriminate | by left | by right].
Qed.

Lemma toLowerCase_pdf (ext : string) :
  toLowerCase ext = ".pdf" <-> In ext pdfExtensions.
Proof.
  split.
  - destruct ext as [|c0 [|c1 [|c2 [|c3 [|c4 rest]]]]]; cbn [toLowerCase];
      intros H; try discriminate.
    inversion H as [[H0 H1 H2 H3]].
    apply lower_ascii_dot in H0.
    apply lower_ascii_p in H1. apply lower_ascii_d in H2. apply lower_ascii_f in H3.
    subst c0. destruct H1, H2, H3; subst; cbn; tauto.
  - intros Hin. cbn in Hin.
    repeat (destruct Hin as [<-|Hin]; [reflexivity|]). destruct Hin.
Qed.

(** X10.  A file is taken as a PDF exactly when its extension is one of
    the eight spellings of [.pdf] in lower and upper case. *)
Theorem isPdf_accepted_extensions {World : Type} (host : Host World) (file : string) :
  isPdf host file = true <-> In (path_extname host file) pdfExtensions.
Proof.
  unfold isPdf. rewrite String.eqb_eq. apply toLowerCase_pdf.
Qed.

(** X7.  A property of a row that is not one of the eleven columns never
    reaches the output: setting it on every row leaves the records
    unchanged; and every record has eleven fields whatever its row holds. *)
Theorem writer_ignores_other_properties (data : list JSObject) (k : string)
    (v : JSValue) (Hk : ~ In k csvColumns) :
  csvRecords (map (fun row => <[k := v]> row) data) = csvRecords data /\
  Forall (fun record => length record = 11) (csvRecords data).
Proof.
  rewrite !csvRecords_rows. split.
  - rewrite map_map. apply map_ext. intros row. unfold js_get.
    rewrite !lookup_insert_ne; [reflexivity|..];
      intros ->; apply Hk; cbn; tauto.
  - apply Forall_map. by apply Forall_true.
Qed.

Lemma writer_ignores_other_properties_witness :
  csvRecords (map (fun row => <["confidence" := JNumber 1]> row)
                [Mock.responseFields "INV-001" 0; ∅])
  = csvRecords [Mock.responseFields "INV-001" 0; ∅] /\
  Forall (fun record => length record = 11)
         (csvRecords [Mock.responseFields "INV-001" 0; ∅]).
Proof.
  apply writer_ignores_other_properties.
  cbn. intros H. repeat (destruct H as [H|H]; [discriminate|]). exact H.
Defined.

(** X8.  With a generation client that honours the schema, every record
    [main] hands to the write stream is fully typed: a string for the file
    name, then for each field of the schema a value of its declared type
    (strings, and numbers other than [NaN]); no field is [undefined]. *)
Theorem written_records_are_typed {World : Type} (host : Host World)
    (Hcontract : SchemaContract host) (invoices : list Invoice) (s : State World) :
  Forall (fun record => Forall2 (fun kind v => kind v = true) columnKinds record)
         (csvRecords (batchOf host invoices s)).
Proof.
  rewrite csvRecords_rows. apply Forall_map.
  pose proof (batch_conforms host Hcontract invoices (world s)) as Hall.
  rewrite List.Forall_forall in Hall. apply List.Forall_forall.
  intros record Hin. pose proof (Hall record Hin) as Hconf.
  destruct (batch_record_origin _ record Hin) as (invoice & data & _ & Hrec).
  unfold conforms, invoiceSchema in Hconf.
  repeat match goal with
         | H : Forall _ (_ :: _) |- _ =>
             let v := fresh "v" in
             let Hv := fresh "Hv" in
             let Hacc := fresh "Hacc" in
             let Hrest := fresh "Hrest" in
             apply Forall_cons in H; destruct H as [(v & Hv & Hacc) Hrest];
             cbn in Hv, Hacc
         end.
  unfold columnKinds. cbn [map invoiceSchema zod_type snd].
  unfold js_get.
  repeat match goal with
         | H : record !! _ = Some _ |- _ => rewrite H; clear H
         end.
  cbn [from_option id].
  assert (Hname : js_or (default JUndefined (record !! "fileName")) (JString "")
                  = JString (fileName invoice)).
  { rewrite Hrec, lookup_insert_eq. cbn. unfold js_or. cbn.
    by destruct (fileName invoice). }
  rewrite Hname. repeat (constructor; [assumption || reflexivity|]). constructor.
Qed.

Lemma written_records_are_typed_witness :
  Forall (fun record => Forall2 (fun kind v => kind v = true) columnKinds record)
         (csvRecords (batchOf Mock.mockHost Mock.invoices1 (Mock.start Mock.world1))).
Proof.
  exact (written_records_are_typed Mock.mockHost mock_contract Mock.invoices1
           (Mock.start Mock.world1)).
Defined.

Lemma console_suffix_last (before loaded printed : list ConsoleLine)
    (line : ConsoleLine) :
  exists out,
    ((before ++ loaded) ++ printed) ++ [line] = before ++ out /\
    last out = Some line.
Proof.
  exists ((loaded ++ printed) ++ [line]). split.
  - by rewrite <- !app_assoc.
  - apply last_snoc.
Qed.

(** X11.  The last line [main] prints tells how the run ended: [main]
    only adds lines to the console, and the last one is [CSV file written
    to ...] when its [try] block completed and [Error:] with the thrown
    error when it did not. *)
Theorem last_line_tells_outcome {World : Type} (host : Host World) (s : State World) :
  exists out,
    console (main host s).2 = console s ++ out /\
    match (mainBody host s).1 with
    | Normal _ => last out = Some (writtenLine host)
    | Throw e => last out = Some (abortLine e)
    end.
Proof.
  destruct (readInvoices_console host s) as (loaded & Hconsole & _).
  unfold main, try_catch. rewrite mainBody_run.
  destruct (readInvoices host s) as [[invoices|e] s1]; cbn in Hconsole.
  - cbn zeta. unfold bind, writeToCSV, await, console_log, console_error.
    cbn [world console]. rewrite Hconsole.
    destruct (writeStream host (outputPath host) _ _) as [[[]|e] w]; cbn [fst snd console].
    + apply console_suffix_last.
    + apply console_suffix_last.
  - exists (loaded ++ [abortLine e]). unfold console_error. cbn.
    rewrite Hconsole, app_assoc. split; [reflexivity | apply last_snoc].
Qed.

Lemma first_column_of_trace (tr : list (Invoice * Completion JSObject)) :
  map (hd JUndefined) (csvRecords (omap batchRecord tr))
  = map JString (omap recordName (omap batchRecord tr)).
Proof.
  rewrite csvRecords_rows, map_map. cbn [hd].
  induction tr as [|[i [d|e]] tr IH]; cbn; [reflexivity| |exact IH].
  unfold recordName at 1, js_get at 1. rewrite lookup_insert_eq. cbn.
  rewrite IH. f_equal. unfold js_or. cbn. by destruct (fileName i).
Qed.

Lemma all_failures_empty_batch {World : Type} (host : Host World) invoices :
  forall w,
    (forall invoice w0,
       In invoice invoices ->
       is_normal (generateObject host (extractOptions (content invoice)) w0).1
       = false) ->
    omap batchRecord (extractionTrace host invoices w).1 = [].
Proof.
  induction invoices as [|invoice rest IH]; intros w Hfail; [reflexivity|].
  cbn [extractionTrace].
  pose proof (Hfail invoice w (or_introl eq_refl)) as Hhead.
  destruct (generateObject host _ w) as [[data|e] w1]; [discriminate|].
  specialize (IH w1 (fun i w0 Hin => Hfail i w0 (or_intror Hin))).
  destruct (extractionTrace host rest w1) as [tr w2]. exact IH.
Qed.

(** X13.  The records of a concatenated batch are the records of its
    parts, in order: a row's record depends on that row alone. *)
Theorem csvRecords_app (data1 data2 : list JSObject) :
  csvRecords (data1 ++ data2) = csvRecords data1 ++ csvRecords data2.
Proof.
  rewrite !csvRecords_rows. apply map_app.
Qed.

(** X14.  The first column of the records handed to the write stream
    lists the file names carried by the batch, as strings and in the
    order of the batch. *)
Theorem first_column_lists_file_names {World : Type} (host : Host World)
    (invoices : list Invoice) (s : State World) :
  exists batch s',
    processInvoices host invoices [] s = (Normal batch, s') /\
    map (hd JUndefined) (csvRecords batch) = map JString (omap recordName batch).
Proof.
  rewrite processInvoices_trace. eexists _, _. split; [reflexivity|].
  cbn [app]. apply first_column_of_trace.
Qed.

(** X15.  When the generation call fails for every invoice, the loop
    still returns normally, with the batch it was given and nothing more;
    started from the empty batch, no record reaches the writer. *)
Theorem all_extractions_fail {World : Type} (host : Host World)
    (invoices : list Invoice) (acc : list JSObject) (s : State World)
    (Hfail : forall invoice w,
        In invoice invoices ->
        is_normal (generateObject host (extractOptions (content invoice)) w).1
        = false) :
  (processInvoices host invoices acc s).1 = Normal acc /\
  (processInvoices host invoices [] s).1 = Normal [] /\
  csvRecords [] = [].
Proof.
  rewrite !processInvoices_trace. cbn [fst].
  rewrite (all_failures_empty_batch host invoices (world s) Hfail).
  by rewrite app_nil_r.
Qed.

Lemma all_extractions_fail_witness :
  (processInvoices Mock.offlineHost Mock.invoices1 [∅] (Mock.start Mock.world1)).1
  = Normal [∅] /\
  (processInvoices Mock.offlineHost Mock.invoices1 [] (Mock.start Mock.world1)).1
  = Normal [] /\
  csvRecords [] = [].
Proof.
  apply (all_extractions_fail Mock.offlineHost Mock.invoices1 [∅]
           (Mock.start Mock.world1)).
  intros invoice w Hin. reflexivity.
Defined.
